(** * STDPConnection (models/stdp_connection.h): a shallow embedding

    The synapse's [double_t] fields are modelled as real numbers, the
    [DictionaryDatum] of the status interface as an association list with
    string keys, and the target neuron's spike history as a list of
    [histentry] records.  The C library's [std::pow] is a parameter of the
    development; [std::exp] is the real exponential.  A second embedding,
    module [Double], runs the same code on IEEE 754 binary64 numbers (Rocq's
    primitive floats), where rounding, infinities and NaN show. *)

From Stdlib Require Import Reals Psatz List String ZArith Sorted.
From Stdlib Require Import Floats.
Import ListNotations.
Open Scope R_scope.
#[global] Set Warnings "-inexact-float".

(** ** Status dictionaries (SLI [DictionaryDatum]) *)

Inductive Datum : Type :=
| DoubleDatum (x : R)
| IntegerDatum (n : Z).

Definition Dictionary : Type := list (string * Datum).

(** [d->lookup(n)]: the entry stored under key [n], if any. *)
Fixpoint lookup (n : string) (d : Dictionary) : option Datum :=
  match d with
  | [] => None
  | (k, v) :: d' => if String.eqb k n then Some v else lookup n d'
  end.

(** [def< T >( d, n, v )]: insert [v] under [n], replacing an older entry. *)
Definition def (d : Dictionary) (n : string) (v : Datum) : Dictionary :=
  (n, v) :: filter (fun p => negb (String.eqb (fst p) n)) d.

Inductive exn : Type := TypeMismatch.

(** [updateValue< double_t >( d, n, value )]: leaves [value] alone when the
    key is absent, reads a [DoubleDatum], and throws [TypeMismatch] for any
    other datum ([getValue< double_t >] only accepts a [DoubleDatum]). *)
Definition updateValue_double (d : Dictionary) (n : string) (value : R)
  : R + exn :=
  match lookup n d with
  | None => inl value
  | Some (DoubleDatum x) => inl x
  | Some (IntegerDatum _) => inr TypeMismatch
  end.

(** ** The target neuron's spike history (Archiving_Node) *)

Record histentry : Type := mk_histentry {
  t_ : R;
  access_counter_ : nat
}.

(** Modelled from the spec: [Archiving_Node], the target neuron's spike
    history (its [get_history] and [get_K_value]), is not part of the
    sources.  Section 4.4 of the spec: the history is an ordered record of
    post-synaptic spike times; [get_history(t1, t2)] yields, in that order,
    exactly the records whose time lies in the half-open interval
    [(t1, t2]]; [get_K_value(t)] is the post-synaptic trace decayed to [t].
    The access counters are the provider's bookkeeping and are not modelled. *)
Record ArchivingNode : Type := mk_node {
  history_ : list histentry;
  get_K_value : R -> R
}.

Definition in_window (t1 t2 : R) (h : histentry) : bool :=
  if Rlt_dec t1 (t_ h) then (if Rle_dec (t_ h) t2 then true else false)
  else false.

(** Modelled from the spec: [get_history( t1, t2, &start, &finish )] of the
    target; the iterator range [[start, finish)] is the returned list. *)
Definition get_history (n : ArchivingNode) (t1 t2 : R) : list histentry :=
  filter (in_window t1 t2) (history_ n).

(** Records ordered by non-decreasing spike time. *)
Definition hist_le (a b : histentry) : Prop := t_ a <= t_ b.

(** ** The connection *)

Section STDP.

(** [std::pow] of the C library. *)
Variable pow : R -> R -> R.

(** The argument of [set_status] passed on to the base class. *)
Variable ConnectorModel : Type.

(** The generic base [Connection< targetidentifierT >]: delay, receptor
    port and its own status keys.  It is not part of the sources; the
    synapse only uses it through these accessors. *)
Class ConnectionBase (B : Type) := {
  ConnectionBase_default : B;
  get_delay : B -> R;
  get_delay_steps : B -> Z;
  get_rport : B -> Z;
  ConnectionBase_get_status : B -> Dictionary -> Dictionary;
  ConnectionBase_set_status : Dictionary -> ConnectorModel -> B -> B
}.

Context {B : Type} `{CB : ConnectionBase B}.

(** [sizeof( *this )], reported under [size_of]. *)
Variable sizeof_STDPConnection : Z.

Record STDPConnection : Type := mk_conn {
  base : B;
  weight_ : R;
  tau_plus_ : R;
  lambda_ : R;
  alpha_ : R;
  mu_plus_ : R;
  mu_minus_ : R;
  Wmax_ : R;
  Kplus_ : R
}.

(** Default constructor. *)
Definition STDPConnection_default : STDPConnection :=
  {| base := ConnectionBase_default;
     weight_ := 1.0; tau_plus_ := 20.0; lambda_ := 0.01; alpha_ := 1.0;
     mu_plus_ := 1.0; mu_minus_ := 1.0; Wmax_ := 100.0; Kplus_ := 0.0 |}.

Definition set_weight (w : R) (c : STDPConnection) : STDPConnection :=
  {| base := base c; weight_ := w; tau_plus_ := tau_plus_ c;
     lambda_ := lambda_ c; alpha_ := alpha_ c; mu_plus_ := mu_plus_ c;
     mu_minus_ := mu_minus_ c; Wmax_ := Wmax_ c; Kplus_ := Kplus_ c |}.

Definition facilitate_ (c : STDPConnection) (w kplus : R) : R :=
  let norm_w :=
    (w / Wmax_ c) + (lambda_ c * pow (1.0 - (w / Wmax_ c)) (mu_plus_ c) * kplus) in
  if Rlt_dec norm_w 1.0 then norm_w * Wmax_ c else Wmax_ c.

Definition depress_ (c : STDPConnection) (w kminus : R) : R :=
  let norm_w :=
    (w / Wmax_ c) - (alpha_ c * lambda_ c * pow (w / Wmax_ c) (mu_minus_ c) * kminus) in
  if Rlt_dec 0.0 norm_w then norm_w * Wmax_ c else 0.0.

(** The [while ( start != finish )] loop of [send]: each record is consumed
    ([++start]) before the coincidence test, and a record with
    [minus_dt == 0] is skipped. *)
Fixpoint facilitation_loop (c : STDPConnection) (t_lastspike dendritic_delay : R)
    (range : list histentry) (w : R) : R :=
  match range with
  | [] => w
  | h :: rest =>
      let minus_dt := t_lastspike - (t_ h + dendritic_delay) in
      if Req_dec_T minus_dt 0 then
        facilitation_loop c t_lastspike dendritic_delay rest w
      else
        facilitation_loop c t_lastspike dendritic_delay rest
          (facilitate_ c w (Kplus_ c * exp (minus_dt / tau_plus_ c)))
  end.

(** One iteration of the loop as a step of a left fold over the range. *)
Definition facilitate_step (c : STDPConnection) (t_lastspike dendritic_delay : R)
    (w : R) (h : histentry) : R :=
  let minus_dt := t_lastspike - (t_ h + dendritic_delay) in
  if Req_dec_T minus_dt 0 then w
  else facilitate_ c w (Kplus_ c * exp (minus_dt / tau_plus_ c)).

(** The event handed to the target by [e()]: receiver, weight, delay in
    steps and receiver port. *)
Record SpikeEvent : Type := mk_event {
  receiver : ArchivingNode;
  ev_weight : R;
  ev_delay : Z;
  ev_rport : Z
}.

(** [send( e, t, t_lastspike, cp )] with [t_spike = e.get_stamp().get_ms()]
    and [target = get_target( t )]: the updated synapse and the event sent. *)
Definition send (c : STDPConnection) (target : ArchivingNode) (t_spike t_lastspike : R)
  : STDPConnection * SpikeEvent :=
  let dendritic_delay := get_delay (base c) in
  let range := get_history target (t_lastspike - dendritic_delay)
                 (t_spike - dendritic_delay) in
  let w1 := facilitation_loop c t_lastspike dendritic_delay range (weight_ c) in
  let w2 := depress_ c w1 (get_K_value target (t_spike - dendritic_delay)) in
  let e := {| receiver := target; ev_weight := w2;
              ev_delay := get_delay_steps (base c); ev_rport := get_rport (base c) |} in
  ({| base := base c; weight_ := w2; tau_plus_ := tau_plus_ c;
      lambda_ := lambda_ c; alpha_ := alpha_ c; mu_plus_ := mu_plus_ c;
      mu_minus_ := mu_minus_ c; Wmax_ := Wmax_ c;
      Kplus_ := Kplus_ c * exp ((t_lastspike - t_spike) / tau_plus_ c) + 1.0 |}, e).

(** [get_status( d )]: the base class's keys, then the synapse's. *)
Definition get_status (c : STDPConnection) (d : Dictionary) : Dictionary :=
  let d := ConnectionBase_get_status (base c) d in
  let d := def d "weight" (DoubleDatum (weight_ c)) in
  let d := def d "tau_plus" (DoubleDatum (tau_plus_ c)) in
  let d := def d "lambda" (DoubleDatum (lambda_ c)) in
  let d := def d "alpha" (DoubleDatum (alpha_ c)) in
  let d := def d "mu_plus" (DoubleDatum (mu_plus_ c)) in
  let d := def d "mu_minus" (DoubleDatum (mu_minus_ c)) in
  let d := def d "Wmax" (DoubleDatum (Wmax_ c)) in
  def d "size_of" (IntegerDatum sizeof_STDPConnection).

(** Outcome of [set_status]: the updated object, or the exception thrown
    together with the object as it was left (the members updated before the
    throw keep their new values). *)
Inductive Result : Type :=
| Ok (c : STDPConnection)
| Throw (e : exn) (c : STDPConnection).

(** One [updateValue< double_t >( d, n, member )] on the object. *)
Definition update_member (d : Dictionary) (n : string)
    (get : STDPConnection -> R) (put : R -> STDPConnection -> STDPConnection)
    (r : Result) : Result :=
  match r with
  | Ok c =>
      match updateValue_double d n (get c) with
      | inl v => Ok (put v c)
      | inr e => Throw e c
      end
  | Throw e c => Throw e c
  end.

Definition set_base (b : B) (c : STDPConnection) : STDPConnection :=
  {| base := b; weight_ := weight_ c; tau_plus_ := tau_plus_ c;
     lambda_ := lambda_ c; alpha_ := alpha_ c; mu_plus_ := mu_plus_ c;
     mu_minus_ := mu_minus_ c; Wmax_ := Wmax_ c; Kplus_ := Kplus_ c |}.
Definition set_tau_plus (x : R) (c : STDPConnection) : STDPConnection :=
  {| base := base c; weight_ := weight_ c; tau_plus_ := x;
     lambda_ := lambda_ c; alpha_ := alpha_ c; mu_plus_ := mu_plus_ c;
     mu_minus_ := mu_minus_ c; Wmax_ := Wmax_ c; Kplus_ := Kplus_ c |}.
Definition set_lambda (x : R) (c : STDPConnection) : STDPConnection :=
  {| base := base c; weight_ := weight_ c; tau_plus_ := tau_plus_ c;
     lambda_ := x; alpha_ := alpha_ c; mu_plus_ := mu_plus_ c;
     mu_minus_ := mu_minus_ c; Wmax_ := Wmax_ c; Kplus_ := Kplus_ c |}.
Definition set_alpha (x : R) (c : STDPConnection) : STDPConnection :=
  {| base := base c; weight_ := weight_ c; tau_plus_ := tau_plus_ c;
     lambda_ := lambda_ c; alpha_ := x; mu_plus_ := mu_plus_ c;
     mu_minus_ := mu_minus_ c; Wmax_ := Wmax_ c; Kplus_ := Kplus_ c |}.
Definition set_mu_plus (x : R) (c : STDPConnection) : STDPConnection :=
  {| base := base c; weight_ := weight_ c; tau_plus_ := tau_plus_ c;
     lambda_ := lambda_ c; alpha_ := alpha_ c; mu_plus_ := x;
     mu_minus_ := mu_minus_ c; Wmax_ := Wmax_ c; Kplus_ := Kplus_ c |}.
Definition set_mu_minus (x : R) (c : STDPConnection) : STDPConnection :=
  {| base := base c; weight_ := weight_ c; tau_plus_ := tau_plus_ c;
     lambda_ := lambda_ c; alpha_ := alpha_ c; mu_plus_ := mu_plus_ c;
     mu_minus_ := x; Wmax_ := Wmax_ c; Kplus_ := Kplus_ c |}.
Definition set_Wmax (x : R) (c : STDPConnection) : STDPConnection :=
  {| base := base c; weight_ := weight_ c; tau_plus_ := tau_plus_ c;
     lambda_ := lambda_ c; alpha_ := alpha_ c; mu_plus_ := mu_plus_ c;
     mu_minus_ := mu_minus_ c; Wmax_ := x; Kplus_ := Kplus_ c |}.

(** [set_status( d, cm )]. *)
Definition set_status (d : Dictionary) (cm : ConnectorModel) (c : STDPConnection)
  : Result :=
  let r := Ok (set_base (ConnectionBase_set_status d cm (base c)) c) in
  let r := update_member d "weight" weight_ set_weight r in
  let r := update_member d "tau_plus" tau_plus_ set_tau_plus r in
  let r := update_member d "lambda" lambda_ set_lambda r in
  let r := update_member d "alpha" alpha_ set_alpha r in
  let r := update_member d "mu_plus" mu_plus_ set_mu_plus r in
  let r := update_member d "mu_minus" mu_minus_ set_mu_minus r in
  update_member d "Wmax" Wmax_ set_Wmax r.

(** The operations a connection receives over its lifetime. *)
Inductive op : Type :=
| OpSetStatus (d : Dictionary) (cm : ConnectorModel)
| OpSetWeight (w : R)
| OpSend (target : ArchivingNode) (t_spike t_lastspike : R).

(** The object after one operation; a throwing [set_status] leaves the
    partially updated object behind. *)
Definition step (c : STDPConnection) (o : op) : STDPConnection :=
  match o with
  | OpSetStatus d cm =>
      match set_status d cm c with Ok c' => c' | Throw _ c' => c' end
  | OpSetWeight w => set_weight w c
  | OpSend target t_spike t_lastspike => fst (send c target t_spike t_lastspike)
  end.

Definition run (c : STDPConnection) (ops : list op) : STDPConnection :=
  fold_left step ops c.

(** Conditions under which a [send] sees a positive [tau_plus] and spikes
    in time order ([t_lastspike <= t_spike]). *)
Definition send_ok (c : STDPConnection) (o : op) : Prop :=
  match o with
  | OpSend _ t_spike t_lastspike => 0 < tau_plus_ c /\ t_lastspike <= t_spike
  | _ => True
  end.

(** [send_ok] at every operation of a sequence, each checked on the state
    the operation is applied to. *)
Fixpoint sends_ok (c : STDPConnection) (ops : list op) : Prop :=
  match ops with
  | [] => True
  | o :: ops' => send_ok c o /\ sends_ok (step c o) ops'
  end.

End STDP.

Arguments ConnectionBase_default {ConnectorModel B ConnectionBase}.
Arguments get_delay {ConnectorModel B ConnectionBase} _.
Arguments get_delay_steps {ConnectorModel B ConnectionBase} _.
Arguments get_rport {ConnectorModel B ConnectionBase} _.
Arguments ConnectionBase_get_status {ConnectorModel B ConnectionBase} _ _.
Arguments ConnectionBase_set_status {ConnectorModel B ConnectionBase} _ _ _.
Arguments send pow {ConnectorModel B CB} c target t_spike t_lastspike.
Arguments get_status {ConnectorModel B CB} sizeof_STDPConnection c d.
Arguments set_status {ConnectorModel B CB} d cm c.
Arguments step pow {ConnectorModel B CB} c o.
Arguments run pow {ConnectorModel B CB} c ops.
Arguments sends_ok pow {ConnectorModel B CB} c ops.
Arguments send_ok {ConnectorModel B} c o.
Arguments STDPConnection_default {ConnectorModel B CB}.
Arguments OpSetStatus {ConnectorModel} d cm.
Arguments OpSetWeight {ConnectorModel} w.
Arguments OpSend {ConnectorModel} target t_spike t_lastspike.

(** Trace replaced, everything else kept (used to state what [get_status]
    depends on). *)
Definition set_Kplus {B : Type} (x : R) (c : STDPConnection (B:=B)) : STDPConnection :=
  {| base := base c; weight_ := weight_ c; tau_plus_ := tau_plus_ c;
     lambda_ := lambda_ c; alpha_ := alpha_ c; mu_plus_ := mu_plus_ c;
     mu_minus_ := mu_minus_ c; Wmax_ := Wmax_ c; Kplus_ := x |}.

(** ** A concrete instantiation, for evaluating the statements

    The base connection reduced to its delay in ms (reported and read back
    under [delay]), ten steps of delay, receptor port 0; [std::pow] on the
    positive reals. *)

#[export] Instance delay_only_base : ConnectionBase unit R := {
  ConnectionBase_default := 1.0;
  get_delay := fun b => b;
  get_delay_steps := fun _ => 10%Z;
  get_rport := fun _ => 0%Z;
  ConnectionBase_get_status := fun b d => def d "delay" (DoubleDatum b);
  ConnectionBase_set_status := fun d _ b =>
    match lookup "delay" d with Some (DoubleDatum x) => x | _ => b end
}.

Definition real_pow (x y : R) : R := Rpower x y.

(** A synapse with the default parameters, weight [w] and trace [k]. *)
Definition example_conn (w k : R) : STDPConnection (B:=R) :=
  {| base := 1; weight_ := w; tau_plus_ := 20.0; lambda_ := 0.01;
     alpha_ := 1.0; mu_plus_ := 1.0; mu_minus_ := 1.0; Wmax_ := 100.0;
     Kplus_ := k |}.

(** Whether an operation reconfigures the synapse through [set_status]. *)
Definition is_set_status {ConnectorModel : Type} (o : op ConnectorModel) : bool :=
  match o with OpSetStatus _ _ => true | _ => false end.

(** ** The same code in double precision

    A second embedding of the synapse, with [double_t] as IEEE 754 binary64
    (Rocq's primitive floats): rounding, infinities and NaN as the compiled
    code has them.  [std::exp] and [std::pow] are parameters. *)

Module Double.

Import Floats.
Local Open Scope float_scope.

Inductive Datum : Type :=
| DoubleDatum (x : float)
| IntegerDatum (n : Z).

Definition Dictionary : Type := list (string * Datum).

Fixpoint lookup (n : string) (d : Dictionary) : option Datum :=
  match d with
  | [] => None
  | (k, v) :: d' => if String.eqb k n then Some v else lookup n d'
  end.

Definition updateValue_double (d : Dictionary) (n : string) (value : float)
  : float + exn :=
  match lookup n d with
  | None => inl value
  | Some (DoubleDatum x) => inl x
  | Some (IntegerDatum _) => inr TypeMismatch
  end.

Record histentry : Type := mk_histentry {
  t_ : float;
  access_counter_ : nat
}.

(** Modelled from the spec: the target's history (section 4.4 of the spec),
    its timestamps compared in double precision. *)
Record ArchivingNode : Type := mk_node {
  history_ : list histentry;
  get_K_value : float -> float
}.

(** Modelled from the spec: the records with [t1 < t_ <= t2], in order. *)
Definition get_history (n : ArchivingNode) (t1 t2 : float) : list histentry :=
  filter (fun h => andb (PrimFloat.ltb t1 (t_ h)) (PrimFloat.leb (t_ h) t2)) (history_ n).

Section Embedding.

(** [std::exp] and [std::pow] of the C library. *)
Variable exp : float -> float.
Variable pow : float -> float -> float.

(** The base connection: its delay in ms and its own [set_status]. *)
Context {Base : Type}.
Variable get_delay : Base -> float.
Variable ConnectionBase_set_status : Dictionary -> Base -> Base.

Record STDPConnection : Type := mk_conn {
  base : Base;
  weight_ : float;
  tau_plus_ : float;
  lambda_ : float;
  alpha_ : float;
  mu_plus_ : float;
  mu_minus_ : float;
  Wmax_ : float;
  Kplus_ : float
}.

Definition STDPConnection_default (b : Base) : STDPConnection :=
  {| base := b; weight_ := 1.0; tau_plus_ := 20.0; lambda_ := 0.01; alpha_ := 1.0;
     mu_plus_ := 1.0; mu_minus_ := 1.0; Wmax_ := 100.0; Kplus_ := 0.0 |}.

Definition facilitate_ (c : STDPConnection) (w kplus : float) : float :=
  let norm_w :=
    (w / Wmax_ c) + (lambda_ c * pow (1.0 - (w / Wmax_ c)) (mu_plus_ c) * kplus) in
  if PrimFloat.ltb norm_w 1.0 then norm_w * Wmax_ c else Wmax_ c.

Definition depress_ (c : STDPConnection) (w kminus : float) : float :=
  let norm_w :=
    (w / Wmax_ c) - (alpha_ c * lambda_ c * pow (w / Wmax_ c) (mu_minus_ c) * kminus) in
  if PrimFloat.ltb 0.0 norm_w then norm_w * Wmax_ c else 0.0.

(** The loop of [send]; [minus_dt == 0] is IEEE equality. *)
Fixpoint facilitation_loop (c : STDPConnection) (t_lastspike dendritic_delay : float)
    (range : list histentry) (w : float) : float :=
  match range with
  | [] => w
  | h :: rest =>
      let minus_dt := t_lastspike - (t_ h + dendritic_delay) in
      if PrimFloat.eqb minus_dt 0 then
        facilitation_loop c t_lastspike dendritic_delay rest w
      else
        facilitation_loop c t_lastspike dendritic_delay rest
          (facilitate_ c w (Kplus_ c * exp (minus_dt / tau_plus_ c)))
  end.

(** [send]: the synapse after the delivery. *)
Definition send (c : STDPConnection) (target : ArchivingNode) (t_spike t_lastspike : float)
  : STDPConnection :=
  let dendritic_delay := get_delay (base c) in
  let range := get_history target (t_lastspike - dendritic_delay)
                 (t_spike - dendritic_delay) in
  let w1 := facilitation_loop c t_lastspike dendritic_delay range (weight_ c) in
  let w2 := depress_ c w1 (get_K_value target (t_spike - dendritic_delay)) in
  {| base := base c; weight_ := w2; tau_plus_ := tau_plus_ c;
     lambda_ := lambda_ c; alpha_ := alpha_ c; mu_plus_ := mu_plus_ c;
     mu_minus_ := mu_minus_ c; Wmax_ := Wmax_ c;
     Kplus_ := Kplus_ c * exp ((t_lastspike - t_spike) / tau_plus_ c) + 1.0 |}.

(** One iteration of the loop as a step of a left fold over the range. *)
Definition facilitate_step (c : STDPConnection) (t_lastspike dendritic_delay : float)
    (w : float) (h : histentry) : float :=
  let minus_dt := t_lastspike - (t_ h + dendritic_delay) in
  if PrimFloat.eqb minus_dt 0 then w
  else facilitate_ c w (Kplus_ c * exp (minus_dt / tau_plus_ c)).

(** The facilitation step as the claim words it: every record of the window
    facilitates, with [k = Kplus * exp(minus_dt / tau_plus)]. *)
Definition facilitate_record (c : STDPConnection) (t_lastspike d : float)
    (w : float) (h : histentry) : float :=
  facilitate_ c w (Kplus_ c * exp ((t_lastspike - (t_ h + d)) / tau_plus_ c)).

Definition set_weight (w : float) (c : STDPConnection) : STDPConnection :=
  {| base := base c; weight_ := w; tau_plus_ := tau_plus_ c;
     lambda_ := lambda_ c; alpha_ := alpha_ c; mu_plus_ := mu_plus_ c;
     mu_minus_ := mu_minus_ c; Wmax_ := Wmax_ c; Kplus_ := Kplus_ c |}.

(** [set_status]: each [updateValue] in turn; a throw leaves the members
    updated so far. *)
Definition set_status (d : Dictionary) (c : STDPConnection) : STDPConnection + (exn * STDPConnection) :=
  let c := {| base := ConnectionBase_set_status d (base c); weight_ := weight_ c;
              tau_plus_ := tau_plus_ c; lambda_ := lambda_ c; alpha_ := alpha_ c;
              mu_plus_ := mu_plus_ c; mu_minus_ := mu_minus_ c; Wmax_ := Wmax_ c;
              Kplus_ := Kplus_ c |} in
  match updateValue_double d "weight" (weight_ c) with inr e => inr (e, c) | inl v0 =>
  let c := set_weight v0 c in
  match updateValue_double d "tau_plus" (tau_plus_ c) with inr e => inr (e, c) | inl v1 =>
  let c := {| base := base c; weight_ := weight_ c; tau_plus_ := v1; lambda_ := lambda_ c;
              alpha_ := alpha_ c; mu_plus_ := mu_plus_ c; mu_minus_ := mu_minus_ c;
              Wmax_ := Wmax_ c; Kplus_ := Kplus_ c |} in
  match updateValue_double d "lambda" (lambda_ c) with inr e => inr (e, c) | inl v2 =>
  let c := {| base := base c; weight_ := weight_ c; tau_plus_ := tau_plus_ c; lambda_ := v2;
              alpha_ := alpha_ c; mu_plus_ := mu_plus_ c; mu_minus_ := mu_minus_ c;
              Wmax_ := Wmax_ c; Kplus_ := Kplus_ c |} in
  match updateValue_double d "alpha" (alpha_ c) with inr e => inr (e, c) | inl v3 =>
  let c := {| base := base c; weight_ := weight_ c; tau_plus_ := tau_plus_ c;
              lambda_ := lambda_ c; alpha_ := v3; mu_plus_ := mu_plus_ c;
              mu_minus_ := mu_minus_ c; Wmax_ := Wmax_ c; Kplus_ := Kplus_ c |} in
  match updateValue_double d "mu_plus" (mu_plus_ c) with inr e => inr (e, c) | inl v4 =>
  let c := {| base := base c; weight_ := weight_ c; tau_plus_ := tau_plus_ c;
              lambda_ := lambda_ c; alpha_ := alpha_ c; mu_plus_ := v4;
              mu_minus_ := mu_minus_ c; Wmax_ := Wmax_ c; Kplus_ := Kplus_ c |} in
  match updateValue_double d "mu_minus" (mu_minus_ c) with inr e => inr (e, c) | inl v5 =>
  let c := {| base := base c; weight_ := weight_ c; tau_plus_ := tau_plus_ c;
              lambda_ := lambda_ c; alpha_ := alpha_ c; mu_plus_ := mu_plus_ c;
              mu_minus_ := v5; Wmax_ := Wmax_ c; Kplus_ := Kplus_ c |} in
  match updateValue_double d "Wmax" (Wmax_ c) with inr e => inr (e, c) | inl v6 =>
  inl {| base := base c; weight_ := weight_ c; tau_plus_ := tau_plus_ c;
         lambda_ := lambda_ c; alpha_ := alpha_ c; mu_plus_ := mu_plus_ c;
         mu_minus_ := mu_minus_ c; Wmax_ := v6; Kplus_ := Kplus_ c |}
  end end end end end end end.

Inductive op : Type :=
| OpSetStatus (d : Dictionary)
| OpSetWeight (w : float)
| OpSend (target : ArchivingNode) (t_spike t_lastspike : float).

Definition step (c : STDPConnection) (o : op) : STDPConnection :=
  match o with
  | OpSetStatus d => match set_status d c with inl c' => c' | inr (_, c') => c' end
  | OpSetWeight w => set_weight w c
  | OpSend target t_spike t_lastspike => send c target t_spike t_lastspike
  end.

Definition run (c : STDPConnection) (ops : list op) : STDPConnection :=
  fold_left step ops c.

End Embedding.

(** The base connection reduced to its delay, read back under [delay]. *)
Definition delay_set_status (d : Dictionary) (b : float) : float :=
  match lookup "delay" d with Some (DoubleDatum x) => x | _ => b end.

End Double.

(** ** Properties *)

Section Proofs.

Variable pow : R -> R -> R.
Variable ConnectorModel : Type.
Context {B : Type} `{CB : ConnectionBase ConnectorModel B}.
Variable sizeof_STDPConnection : Z.

Local Abbreviation conn := (STDPConnection (B:=B)).

(** *** The weight update rule *)

(** The weight [w] normalised by [Wmax] lies in the unit interval. *)
Lemma norm_weight_unit (w W : R) :
  0 < W -> 0 <= w <= W -> 0 <= w / W <= 1.
Proof.
  intros HW Hw.
  assert (Hi : 0 < / W) by (apply Rinv_0_lt_compat; lra).
  assert (Hr : W * / W = 1) by (apply Rinv_r; lra).
  unfold Rdiv; split; nra.
Qed.


(** C3: [facilitate_] computes
    [nw = w/Wmax + lambda * (1 - w/Wmax)^mu_plus * k] and returns [nw * Wmax]
    when [nw < 1.0] (strictly), [Wmax] otherwise. *)
Theorem facilitate_formula (c : conn) (w k : R) :
  let nw := w / Wmax_ c + lambda_ c * pow (1 - w / Wmax_ c) (mu_plus_ c) * k in
  (nw < 1 -> facilitate_ pow c w k = nw * Wmax_ c) /\
  (1 <= nw -> facilitate_ pow c w k = Wmax_ c).
Proof.
  intros nw; unfold facilitate_; replace 1.0 with 1 by lra; fold nw.
  split; intros H; destruct (Rlt_dec nw 1); lra.
Qed.

(** C4: [depress_] computes
    [nw = w/Wmax - alpha * lambda * (w/Wmax)^mu_minus * k] and returns
    [nw * Wmax] when [nw > 0.0] (strictly), [0.0] otherwise. *)
Theorem depress_formula (c : conn) (w k : R) :
  let nw := w / Wmax_ c - alpha_ c * lambda_ c * pow (w / Wmax_ c) (mu_minus_ c) * k in
  (0 < nw -> depress_ pow c w k = nw * Wmax_ c) /\
  (nw <= 0 -> depress_ pow c w k = 0).
Proof.
  intros nw; unfold depress_; replace 0.0 with 0 by lra; fold nw.
  split; intros H; destruct (Rlt_dec 0 nw); lra.
Qed.


(** *** Delivery *)

(** Parameters under which the update rule keeps the weight in range. *)
Definition valid_params (c : conn) : Prop :=
  0 < Wmax_ c /\ 0 < lambda_ c /\ 0 <= alpha_ c /\ 0 <= mu_plus_ c /\ 0 <= mu_minus_ c.

Section Bounds.

(** [std::pow] of a non-negative base by a non-negative exponent is
    non-negative. *)
Hypothesis pow_nonneg : forall x y, 0 <= x -> 0 <= y -> 0 <= pow x y.

Lemma facilitate_in_range (c : conn) (w k : R) :
  valid_params c -> 0 <= k -> 0 <= w <= Wmax_ c ->
  0 <= facilitate_ pow c w k <= Wmax_ c.
Proof.
  intros (HW & Hl & _ & Hmp & _) Hk Hw.
  pose proof (norm_weight_unit w (Wmax_ c) HW Hw) as Hu.
  assert (Hp : 0 <= pow (1.0 - w / Wmax_ c) (mu_plus_ c)) by (apply pow_nonneg; lra).
  assert (Hd : 0 <= lambda_ c * pow (1.0 - w / Wmax_ c) (mu_plus_ c) * k).
  { apply Rmult_le_pos; [apply Rmult_le_pos|]; lra. }
  unfold facilitate_.
  destruct (Rlt_dec _ 1.0) as [Hlt|Hge]; [|lra].
  split; nra.
Qed.

Lemma depress_in_range (c : conn) (w k : R) :
  valid_params c -> 0 <= k -> 0 <= w <= Wmax_ c ->
  0 <= depress_ pow c w k <= Wmax_ c.
Proof.
  intros (HW & Hl & Ha & _ & Hmm) Hk Hw.
  pose proof (norm_weight_unit w (Wmax_ c) HW Hw) as Hu.
  assert (Hp : 0 <= pow (w / Wmax_ c) (mu_minus_ c)) by (apply pow_nonneg; lra).
  assert (Hd : 0 <= alpha_ c * lambda_ c * pow (w / Wmax_ c) (mu_minus_ c) * k).
  { repeat apply Rmult_le_pos; lra. }
  unfold depress_.
  destruct (Rlt_dec 0.0 _) as [Hlt|Hge]; [|lra].
  split; nra.
Qed.

Lemma facilitation_loop_in_range (c : conn) (t_lastspike d : R) (range : list histentry) :
  forall w, valid_params c -> 0 <= Kplus_ c -> 0 <= w <= Wmax_ c ->
  0 <= facilitation_loop pow c t_lastspike d range w <= Wmax_ c.
Proof.
  induction range as [|h rest IH]; intros w Hv HK Hw; simpl; [exact Hw|].
  destruct (Req_dec_T _ 0); apply IH; auto.
  apply facilitate_in_range; auto.
  apply Rmult_le_pos; [exact HK | left; apply exp_pos].
Qed.

(** C1: starting from [0 <= weight <= Wmax] with valid parameters, a
    non-negative synaptic trace [Kplus] (the invariant of the data model,
    see C10) and a non-negative post-synaptic trace from the target, the
    weight after a delivery still lies in [[0, Wmax]]. *)
Theorem send_keeps_weight_in_range (c : conn) (target : ArchivingNode)
    (t_spike t_lastspike : R)
    (Hv : valid_params c) (HK : 0 <= Kplus_ c)
    (HKm : 0 <= get_K_value target (t_spike - get_delay (base c)))
    (Hw : 0 <= weight_ c <= Wmax_ c) :
  0 <= weight_ (fst (send pow c target t_spike t_lastspike)) <= Wmax_ c.
Proof.
  simpl.
  apply depress_in_range; auto.
  apply facilitation_loop_in_range; auto.
Qed.

End Bounds.

Lemma filter_StronglySorted {A : Type} (P : A -> A -> Prop) (f : A -> bool) (l : list A) :
  StronglySorted P l -> StronglySorted P (filter f l).
Proof.
  induction l as [|a l IH]; intros Hs; simpl; [constructor|].
  apply StronglySorted_inv in Hs as [Hl Ha].
  destruct (f a); [|auto].
  constructor; [auto|].
  apply Forall_forall; intros x Hx.
  apply filter_In in Hx as [Hx _].
  exact (proj1 (Forall_forall _ _) Ha x Hx).
Qed.

Lemma hist_le_trans : forall a b c, hist_le a b -> hist_le b c -> hist_le a c.
Proof. unfold hist_le; intros; lra. Qed.

Lemma get_history_sorted (target : ArchivingNode) (t1 t2 : R) :
  Sorted hist_le (history_ target) -> Sorted hist_le (get_history target t1 t2).
Proof.
  intros Hs.
  apply StronglySorted_Sorted, filter_StronglySorted.
  apply Sorted_StronglySorted; [exact hist_le_trans | exact Hs].
Qed.

(** The loop is the left fold of its step over the range. *)
Lemma facilitation_loop_is_fold (c : conn) (t_lastspike d : R) (range : list histentry) :
  forall w, facilitation_loop pow c t_lastspike d range w =
            fold_left (facilitate_step pow c t_lastspike d) range w.
Proof.
  induction range as [|h rest IH]; intros w; simpl; [reflexivity|].
  unfold facilitate_step at 2; destruct (Req_dec_T _ 0); apply IH.
Qed.

(** The same in the double-precision embedding. *)
Lemma double_facilitation_loop_is_fold (exp : float -> float) (fpow : float -> float -> float)
    (Bd : Type) (c : Double.STDPConnection (Base:=Bd)) (t_lastspike d : float)
    (range : list Double.histentry) :
  forall w, Double.facilitation_loop exp fpow c t_lastspike d range w =
            fold_left (Double.facilitate_step exp fpow c t_lastspike d) range w.
Proof.
  induction range as [|h rest IH]; intros w; simpl; [reflexivity|].
  unfold Double.facilitate_step at 2; destruct (PrimFloat.eqb _ _); apply IH.
Qed.

(** C2 (as amended): for a target whose history is ordered by time, the
    window is consumed in non-decreasing timestamp order, and the weight after
    the delivery is one depression step, with the target's trace at
    [t_spike - d], applied to the left fold over the window of the loop's
    step: a record with [minus_dt = t_lastspike - (t + d)] different from zero
    facilitates the already-updated weight with
    [k = Kplus * exp(minus_dt / tau_plus)], a record with [minus_dt == 0] is
    skipped.  The weight equation holds in the double-precision embedding too. *)
Theorem send_weight_is_fold (c : conn) (target : ArchivingNode) (t_spike t_lastspike : R)
    (Hsorted : Sorted hist_le (history_ target)) :
  (let d := get_delay (base c) in
   let window := get_history target (t_lastspike - d) (t_spike - d) in
   Sorted hist_le window /\
   weight_ (fst (send pow c target t_spike t_lastspike)) =
     depress_ pow c (fold_left (facilitate_step pow c t_lastspike d) window (weight_ c))
       (get_K_value target (t_spike - d))) /\
  (forall (exp : float -> float) (fpow : float -> float -> float) (Bd : Type)
          (delay : Bd -> float) (cd : Double.STDPConnection (Base:=Bd))
          (tgt : Double.ArchivingNode) (ts tl : float),
     let d := delay (Double.base cd) in
     Double.weight_ (Double.send exp fpow delay cd tgt ts tl) =
     Double.depress_ fpow cd
       (fold_left (Double.facilitate_step exp fpow cd tl d)
          (Double.get_history tgt (tl - d)%float (ts - d)%float) (Double.weight_ cd))
       (Double.get_K_value tgt (ts - d)%float)).
Proof.
  split.
  - intros d window; split.
    + apply get_history_sorted; exact Hsorted.
    + simpl; fold d; fold window.
      rewrite facilitation_loop_is_fold; reflexivity.
  - intros exp fpow Bd delay cd tgt ts tl d; simpl; fold d.
    rewrite double_facilitation_loop_is_fold; reflexivity.
Qed.

(** C5: a record whose delay-shifted time equals [t_lastspike]
    ([minus_dt == 0]) is consumed by the loop without any effect: the loop
    over a range containing it gives the weight of the loop over the same
    range without it, every other record being processed once, in order. *)
Theorem coincident_record_skipped (c : conn) (t_lastspike d : R)
    (pre post : list histentry) (r : histentry) (w : R)
    (Hr : t_lastspike - (t_ r + d) = 0) :
  facilitation_loop pow c t_lastspike d (pre ++ r :: post) w =
  facilitation_loop pow c t_lastspike d (pre ++ post) w.
Proof.
  revert w; induction pre as [|h pre IH]; intros w; simpl.
  - destruct (Req_dec_T _ 0) as [_|Hne]; [reflexivity|contradiction].
  - destruct (Req_dec_T _ 0); apply IH.
Qed.

(** C6: every delivery sets the trace to
    [Kplus * exp((t_lastspike - t_spike) / tau_plus) + 1.0]; its weight is
    one depression step applied to the result of the facilitation loop, and
    with an empty window that loop is the identity, so the depression step is
    applied to the unchanged weight. *)
Theorem send_trace_and_depression (c : conn) (target : ArchivingNode)
    (t_spike t_lastspike : R) :
  let d := get_delay (base c) in
  let window := get_history target (t_lastspike - d) (t_spike - d) in
  Kplus_ (fst (send pow c target t_spike t_lastspike)) =
    Kplus_ c * exp ((t_lastspike - t_spike) / tau_plus_ c) + 1.0 /\
  weight_ (fst (send pow c target t_spike t_lastspike)) =
    depress_ pow c (facilitation_loop pow c t_lastspike d window (weight_ c))
      (get_K_value target (t_spike - d)) /\
  (window = [] ->
   weight_ (fst (send pow c target t_spike t_lastspike)) =
     depress_ pow c (weight_ c) (get_K_value target (t_spike - d))).
Proof.
  intros d window; split; [reflexivity|split; [reflexivity|]].
  intros Hempty; simpl; fold d; fold window; rewrite Hempty; reflexivity.
Qed.

(** *** Status export and import *)

Lemma lookup_filter_other (n k : string) (d : Dictionary) :
  k <> n ->
  lookup n (filter (fun p => negb (String.eqb (fst p) k)) d) = lookup n d.
Proof.
  intros Hkn; induction d as [|[k' v'] d IH]; simpl; [reflexivity|].
  destruct (String.eqb_spec k' k) as [->|Hne]; simpl.
  - destruct (String.eqb_spec k n); [contradiction|exact IH].
  - destruct (String.eqb k' n); [reflexivity|exact IH].
Qed.

Lemma lookup_def (n k : string) (v : Datum) (d : Dictionary) :
  lookup n (def d k v) = if String.eqb k n then Some v else lookup n d.
Proof.
  unfold def; simpl.
  destruct (String.eqb_spec k n) as [_|Hne]; [reflexivity|].
  apply lookup_filter_other; exact Hne.
Qed.

(** C7: importing what [get_status] exported (into any dictionary [d0])
    succeeds and leaves weight, tau_plus, lambda, alpha, mu_plus, mu_minus,
    Wmax and the trace unchanged: the result is the synapse itself, only its
    base-class part being handed to the base class's own [set_status]. *)
Theorem status_roundtrip (c : conn) (d0 : Dictionary) (cm : ConnectorModel) :
  let d := get_status sizeof_STDPConnection c d0 in
  set_status d cm c = Ok (set_base (ConnectionBase_set_status d cm (base c)) c).
Proof.
  intros d.
  unfold set_status, update_member, updateValue_double.
  unfold d at 2 3 4 5 6 7 8; unfold get_status.
  rewrite !lookup_def; simpl.
  reflexivity.
Qed.

(** The keys [get_status] adds on top of the base class's. *)
Definition STDPConnection_keys : list string :=
  ["weight"; "tau_plus"; "lambda"; "alpha"; "mu_plus"; "mu_minus"; "Wmax"; "size_of"]%string.

Lemma In_def (d : Dictionary) (n : string) (v : Datum) (p : string * Datum) :
  In p (def d n v) -> p = (n, v) \/ In p d.
Proof.
  unfold def; simpl; intros [H|H]; [left; auto|right].
  apply filter_In in H; tauto.
Qed.

(** C8 (as amended): [get_status] reports weight, tau_plus, lambda, alpha,
    mu_plus, mu_minus and Wmax as doubles and [size_of] as an integer; every
    other entry is the base class's; the result does not depend on the trace
    [Kplus], which is not reported.  [get_status] only reads the synapse: it
    returns a dictionary and no new synapse state. *)
Theorem get_status_reports (c : conn) (d0 : Dictionary) :
  let d := get_status sizeof_STDPConnection c d0 in
  lookup "weight" d = Some (DoubleDatum (weight_ c)) /\
  lookup "tau_plus" d = Some (DoubleDatum (tau_plus_ c)) /\
  lookup "lambda" d = Some (DoubleDatum (lambda_ c)) /\
  lookup "alpha" d = Some (DoubleDatum (alpha_ c)) /\
  lookup "mu_plus" d = Some (DoubleDatum (mu_plus_ c)) /\
  lookup "mu_minus" d = Some (DoubleDatum (mu_minus_ c)) /\
  lookup "Wmax" d = Some (DoubleDatum (Wmax_ c)) /\
  lookup "size_of" d = Some (IntegerDatum sizeof_STDPConnection) /\
  (forall p, In p d -> In (fst p) STDPConnection_keys \/
                       In p (ConnectionBase_get_status (base c) d0)) /\
  (forall x, get_status sizeof_STDPConnection (set_Kplus x c) d0 = d).
Proof.
  intros d.
  repeat split; try (unfold d, get_status; rewrite !lookup_def; reflexivity).
  intros p Hp; unfold d, get_status in Hp.
  repeat (apply In_def in Hp as [Hp|Hp]; [left; subst p; simpl; tauto|]).
  right; exact Hp.
Qed.

(** *** The synaptic trace *)

Lemma update_member_Kplus (d : Dictionary) (n : string) (get : conn -> R)
    (put : R -> conn -> conn) (r : Result) :
  (forall v c, Kplus_ (put v c) = Kplus_ c) ->
  Kplus_ (match update_member d n get put r with Ok c' => c' | Throw _ c' => c' end) =
  Kplus_ (match r with Ok c' => c' | Throw _ c' => c' end).
Proof.
  intros Hput; destruct r as [c|e c]; simpl; [|reflexivity].
  destruct (updateValue_double d n (get c)); simpl; auto.
Qed.

Lemma set_status_Kplus (d : Dictionary) (cm : ConnectorModel) (c : conn) :
  Kplus_ (step pow c (OpSetStatus d cm)) = Kplus_ c.
Proof.
  unfold step, set_status.
  repeat (rewrite update_member_Kplus; [|reflexivity]).
  reflexivity.
Qed.

Lemma send_Kplus_ge_1 (c : conn) (target : ArchivingNode) (t_spike t_lastspike : R) :
  0 <= Kplus_ c -> 1 <= Kplus_ (step pow c (OpSend target t_spike t_lastspike)).
Proof.
  intros HK; simpl.
  pose proof (exp_pos ((t_lastspike - t_spike) / tau_plus_ c)).
  assert (0 <= Kplus_ c * exp ((t_lastspike - t_spike) / tau_plus_ c)) by nra.
  lra.
Qed.

Lemma step_Kplus_nonneg (c : conn) (o : op ConnectorModel) :
  0 <= Kplus_ c -> 0 <= Kplus_ (step pow c o).
Proof.
  intros HK; destruct o as [d cm|w|target t_spike t_lastspike].
  - rewrite set_status_Kplus; exact HK.
  - exact HK.
  - pose proof (send_Kplus_ge_1 c target t_spike t_lastspike HK); lra.
Qed.

Lemma run_Kplus_nonneg (ops : list (op ConnectorModel)) :
  forall c, 0 <= Kplus_ c -> 0 <= Kplus_ (run pow c ops).
Proof.
  induction ops as [|o ops IH]; intros c HK; simpl; [exact HK|].
  apply IH, step_Kplus_nonneg, HK.
Qed.

(** C10 (as amended): from the default-constructed synapse (trace [0.0]),
    [set_status] and [set_weight] never change the trace, and along any
    sequence of operations in which every [send] sees [tau_plus > 0] and
    [t_lastspike <= t_spike], the trace stays non-negative and is at least
    [1.0] right after every [send]. *)
Theorem trace_invariant :
  (forall (c : conn) d cm, Kplus_ (step pow c (OpSetStatus d cm)) = Kplus_ c) /\
  (forall (c : conn) w, Kplus_ (step pow c (OpSetWeight w)) = Kplus_ c) /\
  (forall ops, sends_ok pow STDPConnection_default ops ->
     0 <= Kplus_ (run pow STDPConnection_default ops)) /\
  (forall ops target t_spike t_lastspike,
     sends_ok pow STDPConnection_default (ops ++ [OpSend target t_spike t_lastspike]) ->
     1 <= Kplus_ (run pow STDPConnection_default
                    (ops ++ [OpSend target t_spike t_lastspike]))).
Proof.
  assert (H0 : 0 <= Kplus_ (STDPConnection_default (CB:=CB))) by (simpl; lra).
  split; [intros c d cm; apply set_status_Kplus|split; [reflexivity|split]].
  - intros ops _; apply run_Kplus_nonneg; exact H0.
  - intros ops target t_spike t_lastspike _.
    unfold run; rewrite fold_left_app.
    apply (send_Kplus_ge_1 (fold_left (step pow) ops STDPConnection_default)
             target t_spike t_lastspike).
    apply run_Kplus_nonneg; exact H0.
Qed.

End Proofs.

(** ** Evaluations at concrete synapses *)

Lemma real_pow_nonneg : forall x y, 0 <= x -> 0 <= y -> 0 <= real_pow x y.
Proof. intros x y _ _; unfold real_pow, Rpower; left; apply exp_pos. Qed.

(** The target of the spec's end-to-end scenario: one post-synaptic spike
    at 25 ms, post-synaptic trace 0.2. *)
Definition scenario_target : ArchivingNode :=
  mk_node [mk_histentry 25 0] (fun _ => 0.2).

Lemma send_keeps_weight_in_range_witness :
  valid_params (example_conn 50 1) /\
  0 <= weight_ (fst (send real_pow (CB:=delay_only_base) (example_conn 50 1)
                       scenario_target 30 10)) <= Wmax_ (example_conn 50 1).
Proof.
  assert (Hv : valid_params (example_conn 50 1)) by (unfold valid_params; simpl; lra).
  split; [exact Hv|].
  apply (send_keeps_weight_in_range real_pow unit (CB:=delay_only_base)
           real_pow_nonneg (example_conn 50 1) scenario_target 30 10 Hv);
    simpl; lra.
Defined.

Lemma send_weight_is_fold_witness :
  Sorted hist_le (history_ (mk_node [mk_histentry 12 0; mk_histentry 25 0] (fun _ => 0.2))) /\
  weight_ (fst (send real_pow (CB:=delay_only_base) (example_conn 50 1)
                  (mk_node [mk_histentry 12 0; mk_histentry 25 0] (fun _ => 0.2)) 30 10)) =
  depress_ real_pow (example_conn 50 1)
    (fold_left (facilitate_step real_pow (example_conn 50 1) 10 1)
       (get_history (mk_node [mk_histentry 12 0; mk_histentry 25 0] (fun _ => 0.2))
          (10 - 1) (30 - 1)) 50) 0.2.
Proof.
  assert (Hs : Sorted hist_le (history_ (mk_node [mk_histentry 12 0; mk_histentry 25 0]
                                            (fun _ => 0.2)))).
  { simpl; repeat constructor; unfold hist_le; simpl; lra. }
  split; [exact Hs|].
  exact (proj2 (proj1 (send_weight_is_fold real_pow unit (CB:=delay_only_base)
                         (example_conn 50 1) _ 30 10 Hs))).
Defined.

Lemma coincident_record_skipped_witness :
  10 - (t_ (mk_histentry 9 0) + 1) = 0 /\
  facilitation_loop real_pow (example_conn 50 1) 10 1
    ([mk_histentry 5 0] ++ mk_histentry 9 0 :: [mk_histentry 12 0]) 50 =
  facilitation_loop real_pow (example_conn 50 1) 10 1
    ([mk_histentry 5 0] ++ [mk_histentry 12 0]) 50.
Proof.
  assert (Hr : 10 - (t_ (mk_histentry 9 0) + 1) = 0) by (simpl; lra).
  split; [exact Hr|].
  apply (coincident_record_skipped real_pow (example_conn 50 1) 10 1
           [mk_histentry 5 0] [mk_histentry 12 0] (mk_histentry 9 0) 50 Hr).
Defined.




(** C8 fails: the default-constructed synapse has trace [0.0] and every
    other exported value is non-zero, so no entry of the exported dictionary
    carries the trace. *)
Lemma get_status_omits_trace :
  ~ (exists p, In p (get_status (CB:=delay_only_base) 64%Z STDPConnection_default []) /\
               snd p = DoubleDatum (Kplus_ (STDPConnection_default (CB:=delay_only_base)))).
Proof.
  intros (p & Hp & Hv); simpl in Hp.
  repeat destruct Hp as [<-|Hp]; try contradiction; simpl in Hv; try discriminate;
    injection Hv; lra.
Qed.

(** The synapse and target of the double-precision scenario of C2: delay
    [0.9], trace [1], weight [50], [mu_plus = mu_minus = 0]; one
    post-synaptic spike at [0.1]. *)
Definition coincident_conn : Double.STDPConnection (Base:=float) :=
  (Double.mk_conn 0.9 50 20 0.01 1 0 0 100 1)%float.

Definition coincident_target : Double.ArchivingNode :=
  Double.mk_node [Double.mk_histentry 0.1%float 0] (fun _ => 0.95%float).

(** C2 fails in double precision: for the spikes at [t_lastspike = 1.0] and
    [t_spike = 2.0], the record at [0.1] is in the window
    [(1.0 - 0.9, 2.0 - 0.9]] (the rounded [1.0 - 0.9] is below [0.1]), but
    [minus_dt = 1.0 - (0.1 + 0.9)] is exactly zero: the code skips it while
    the plain fold facilitates it, so the weights differ.  Only
    [exp(0) = 1] and [pow(x, 0) = 1] (C Annex F) are assumed of the C
    library. *)
Lemma send_weight_fold_fails_in_double :
  ~ (exists (exp : float -> float) (fpow : float -> float -> float),
       exp 0%float = 1%float /\ (forall x, fpow x 0%float = 1%float) /\
       Double.weight_ (Double.send exp fpow (fun b => b) coincident_conn coincident_target 2 1) =
       Double.depress_ fpow coincident_conn
         (fold_left (Double.facilitate_record exp fpow coincident_conn 1 0.9)
            (Double.get_history coincident_target (1 - 0.9)%float (2 - 0.9)%float)
            (Double.weight_ coincident_conn))
         (Double.get_K_value coincident_target (2 - 0.9)%float)).
Proof.
  intros (exp & fpow & He & Hp & H).
  vm_compute in H; rewrite ?He, ?Hp in H; vm_compute in H.
  rewrite ?He, ?Hp in H; vm_compute in H.
  match type of H with
  | ?a = _ => apply (f_equal (fun x => PrimFloat.eqb a x)) in H
  end;
  vm_compute in H; discriminate.
Qed.

(** A configuration with a negative [tau_plus]; [set_status] does not check it. *)
Definition negative_tau_config : Double.Dictionary :=
  [("tau_plus", Double.DoubleDatum (-1)%float)]%string.

(** C10 fails in double precision without a condition on [tau_plus]: after
    [set_status] with [tau_plus = -1], a first [send] at [t_spike = 1000]
    with [t_lastspike = 0] computes [0 * exp(1000) + 1]; [exp(1000)]
    overflows to [+inf] (C 7.12.1 with Annex F), [0 * inf] is NaN, and the
    trace is NaN, which is not [>= 0]. *)
Lemma trace_invariant_fails_in_double :
  ~ (exists (exp : float -> float) (fpow : float -> float -> float),
       exp 1000%float = infinity /\
       PrimFloat.leb 0 (Double.Kplus_
         (Double.run exp fpow (fun b => b) Double.delay_set_status
            (Double.STDPConnection_default 1%float)
            [Double.OpSetStatus negative_tau_config;
             Double.OpSend (Double.mk_node [] (fun _ => 0%float)) 1000 0])) = true).
Proof.
  intros (exp & fpow & He & H).
  vm_compute in H; rewrite He in H; vm_compute in H; discriminate.
Qed.

Lemma trace_invariant_witness :
  sends_ok real_pow (CB:=delay_only_base) STDPConnection_default
    ([OpSetWeight 30] ++ [OpSend scenario_target 30 10]) /\
  1 <= Kplus_ (run real_pow (CB:=delay_only_base) STDPConnection_default
                 ([OpSetWeight 30] ++ [OpSend scenario_target 30 10])).
Proof.
  assert (Hok : sends_ok real_pow (CB:=delay_only_base) STDPConnection_default
                  ([OpSetWeight (ConnectorModel:=unit) 30] ++ [OpSend scenario_target 30 10])).
  { simpl; repeat split; lra. }
  split; [exact Hok|].
  exact (proj2 (proj2 (proj2 (trace_invariant real_pow unit (CB:=delay_only_base))))
           [OpSetWeight 30] scenario_target 30 10 Hok).
Defined.

(** ** Further properties of the synapse *)

Section Extras.

Variable pow : R -> R -> R.
Variable ConnectorModel : Type.
Context {B : Type} `{CB : ConnectionBase ConnectorModel B}.

Local Abbreviation conn := (STDPConnection (B:=B)).

(** *** Clamping of the update rule *)

(** [facilitate_] never returns more than [Wmax] and [depress_] never a
    negative weight, whatever the weight, trace and other parameters. *)
Theorem update_rule_clamps (c : conn) (w k : R) (HW : 0 < Wmax_ c) :
  facilitate_ pow c w k <= Wmax_ c /\ 0 <= depress_ pow c w k.
Proof.
  unfold facilitate_, depress_; split.
  - destruct (Rlt_dec _ 1.0) as [H|H]; [nra|lra].
  - destruct (Rlt_dec 0.0 _) as [H|H]; [nra|lra].
Qed.

Section Monotone.

Hypothesis pow_nonneg : forall x y, 0 <= x -> 0 <= y -> 0 <= pow x y.

(** A saturated weight stays saturated under facilitation. *)
Theorem facilitate_at_Wmax (c : conn) (k : R)
    (HW : 0 < Wmax_ c) (Hl : 0 <= lambda_ c) (Hmp : 0 <= mu_plus_ c) (Hk : 0 <= k) :
  facilitate_ pow c (Wmax_ c) k = Wmax_ c.
Proof.
  unfold facilitate_.
  replace (Wmax_ c / Wmax_ c) with 1 by (field; lra).
  assert (0 <= pow (1.0 - 1) (mu_plus_ c)) by (apply pow_nonneg; lra).
  assert (0 <= lambda_ c * pow (1.0 - 1) (mu_plus_ c) * k)
    by (apply Rmult_le_pos; [apply Rmult_le_pos|]; lra).
  destruct (Rlt_dec _ 1.0); lra.
Qed.

(** A zero weight stays zero under depression. *)
Theorem depress_at_zero (c : conn) (k : R)
    (HW : 0 < Wmax_ c) (Hl : 0 <= lambda_ c) (Ha : 0 <= alpha_ c)
    (Hmm : 0 <= mu_minus_ c) (Hk : 0 <= k) :
  depress_ pow c 0 k = 0.
Proof.
  unfold depress_.
  replace (0 / Wmax_ c) with 0 by (field; lra).
  assert (0 <= pow 0 (mu_minus_ c)) by (apply pow_nonneg; lra).
  assert (0 <= alpha_ c * lambda_ c * pow 0 (mu_minus_ c) * k)
    by (repeat apply Rmult_le_pos; lra).
  destruct (Rlt_dec 0.0 _); lra.
Qed.





End Monotone.

(** *** Configuration *)

(** Applying the same configuration twice has the same effect on the
    synapse's own fields as applying it once. *)
Theorem set_status_idempotent (d : Dictionary) (cm : ConnectorModel) (c c1 : conn)
    (H : set_status d cm c = Ok c1) :
  set_status d cm c1 = Ok (set_base (ConnectionBase_set_status d cm (base c1)) c1).
Proof.
  revert H; unfold set_status, update_member, updateValue_double.
  repeat match goal with
         | |- context [lookup ?n d] =>
             destruct (lookup n d) as [[?|?]|]; simpl; try discriminate
         end;
  intros H; injection H as <-; reflexivity.
Qed.

(** *** Sequences of operations *)

(** Without a [set_status], any sequence of [set_weight] and [send]
    operations keeps the base connection and the six plasticity parameters. *)
Theorem run_without_set_status_keeps_params (c : conn) (ops : list (op ConnectorModel))
    (Hops : Forall (fun o => is_set_status o = false) ops) :
  let c' := run pow c ops in
  base c' = base c /\ tau_plus_ c' = tau_plus_ c /\ lambda_ c' = lambda_ c /\
  alpha_ c' = alpha_ c /\ mu_plus_ c' = mu_plus_ c /\ mu_minus_ c' = mu_minus_ c /\
  Wmax_ c' = Wmax_ c.
Proof.
  unfold run; revert c; induction Hops as [|o ops Ho Hops IH]; intros c; simpl.
  - repeat split.
  - destruct (IH (step pow c o)) as (E1 & E2 & E3 & E4 & E5 & E6 & E7).
    rewrite E1, E2, E3, E4, E5, E6, E7.
    destruct o; [discriminate | | ]; simpl; repeat split.
Qed.

End Extras.

(** ** Evaluations of the further properties *)

(** A full configuration, with the base connection's [delay] too. *)
Definition full_config : Dictionary :=
  [("delay", DoubleDatum 2); ("weight", DoubleDatum 40); ("tau_plus", DoubleDatum 15);
   ("lambda", DoubleDatum 0.005); ("alpha", DoubleDatum 1.1); ("mu_plus", DoubleDatum 0);
   ("mu_minus", DoubleDatum 1); ("Wmax", DoubleDatum 80)]%string.

Lemma update_rule_clamps_witness :
  0 < Wmax_ (example_conn 250 1) /\
  facilitate_ real_pow (example_conn 250 1) 250 3 <= Wmax_ (example_conn 250 1) /\
  0 <= depress_ real_pow (example_conn 250 1) 250 3.
Proof.
  assert (HW : 0 < Wmax_ (example_conn 250 1)) by (simpl; lra).
  split; [exact HW | exact (update_rule_clamps real_pow (example_conn 250 1) 250 3 HW)].
Defined.

Lemma facilitate_at_Wmax_witness :
  facilitate_ real_pow (example_conn 50 1) (Wmax_ (example_conn 50 1)) 2 =
  Wmax_ (example_conn 50 1).
Proof.
  apply (facilitate_at_Wmax real_pow real_pow_nonneg (example_conn 50 1) 2); simpl; lra.
Defined.

Lemma depress_at_zero_witness :
  depress_ real_pow (example_conn 50 1) 0 2 = 0.
Proof.
  apply (depress_at_zero real_pow real_pow_nonneg (example_conn 50 1) 2); simpl; lra.
Defined.



Lemma set_status_idempotent_witness :
  set_status (CB:=delay_only_base) full_config tt
    {| base := 2; weight_ := 40; tau_plus_ := 15; lambda_ := 0.005; alpha_ := 1.1;
       mu_plus_ := 0; mu_minus_ := 1; Wmax_ := 80; Kplus_ := 1 |} =
  Ok {| base := 2; weight_ := 40; tau_plus_ := 15; lambda_ := 0.005; alpha_ := 1.1;
        mu_plus_ := 0; mu_minus_ := 1; Wmax_ := 80; Kplus_ := 1 |}.
Proof.
  apply (set_status_idempotent unit (CB:=delay_only_base) full_config tt (example_conn 50 1));
    reflexivity.
Defined.

Lemma run_without_set_status_keeps_params_witness :
  Wmax_ (run real_pow (CB:=delay_only_base) (example_conn 50 1)
           [OpSetWeight 30; OpSend scenario_target 30 10]) = Wmax_ (example_conn 50 1).
Proof.
  refine (proj2 (proj2 (proj2 (proj2 (proj2 (proj2
    (run_without_set_status_keeps_params real_pow unit (CB:=delay_only_base)
       (example_conn 50 1) [OpSetWeight 30; OpSend scenario_target 30 10] _))))))).
  repeat constructor.
Defined.
